(** * The GPT2 language-model synapse of bittensor

    A shallow embedding of [bittensor/synapses/gpt2/model.py]: the pooler
    [GPT2Pooler] and the constructor and the two entry points [forward] and
    [forward_text] of [GPT2LMSynapse].

    Python's name resolution is part of what the module does, so it is kept
    in the model: local variables live in a frame indexed by their names and
    reading an unbound one raises, global names are looked up in the
    module's namespace and then among the builtins.  The transformer blocks,
    the linear layers, the loss functions, the router and the dendrite are
    collaborators of the module; they are the fields of a record and every
    statement below holds for all of them. *)

From Stdlib Require Import ZArith String List Bool.
From stdpp Require Import gmap strings list fin_maps.

Set Warnings "-register-all".

Open Scope string_scope.

(** ** Exceptions and outcomes *)

Inductive exn : Type :=
| NameError (name : string)
| UnboundLocalError (name : string)
| KeyError (key : string)
| TypeError (what : string)
| AttributeError (attribute : string)
| ValueError (msg : string)
| NoPeerResponseError.

Inductive outcome (A : Type) : Type :=
| Ret (a : A)
| Raise (e : exn).

Arguments Ret {A} a.
Arguments Raise {A} e.

Definition returns {A : Type} (o : outcome A) : bool :=
  match o with Ret _ => true | Raise _ => false end.

(** ** Values *)

(** What a module-level name can be bound to: [None], a boolean, an integer,
    a string, or an object with the default truth value (a module, a class,
    a function). *)
Inductive pyobj : Type :=
| PNone
| PBool (b : bool)
| PInt (n : Z)
| PStr (s : string)
| PObj (name : string).

(** Truth value testing, as [if x:] does it. *)
Definition truthy (o : pyobj) : bool :=
  match o with
  | PNone => false
  | PBool b => b
  | PInt n => negb (n =? 0)%Z
  | PStr s => negb (String.eqb s "")
  | PObj _ => true
  end.

(** What a local variable of [forward] holds: [None] or a tensor. *)
Inductive value (T : Type) : Type :=
| VNone
| VTensor (t : T).

Arguments VNone {T}.
Arguments VTensor {T} t.

(** A batch of token ids, shape (batch_size, sequence_len). *)
Definition Tokens : Type := list (list Z).

(** A peer of the network, as the metagraph lists it. *)
Definition Peer : Type := string.

(** The calls that leave the synapse. *)
Inductive call : Type :=
| MetagraphSynapses
| RouterRoute
| DendriteForwardText
| RouterJoin.

(** ** Dictionaries

    A frame of local variables, the result of [forward] and the attributes
    of an object are dictionaries keyed by names: a name has at most one
    entry, and the entries keep the order in which the names were first
    set. *)
Definition dict (V : Type) : Type := list (string * V).

Fixpoint dict_get {V : Type} (x : string) (d : dict V) : option V :=
  match d with
  | [] => None
  | (y, v) :: d' => if String.eqb x y then Some v else dict_get x d'
  end.

Fixpoint dict_set {V : Type} (x : string) (v : V) (d : dict V) : dict V :=
  match d with
  | [] => [(x, v)]
  | (y, u) :: d' =>
      if String.eqb x y then (x, v) :: d' else (y, u) :: dict_set x v d'
  end.

#[global] Instance dict_lookup (V : Type) : Lookup string V (dict V) :=
  dict_get.
#[global] Instance dict_insert (V : Type) : Insert string V (dict V) :=
  dict_set.
#[global] Instance dict_empty (V : Type) : Empty (dict V) := [].

(** ** The interpreter state: a frame of locals and the log of calls

    The log lists the calls made so far, the most recent first. *)

Record state (T : Type) : Type := mkState {
  frame : dict (value T);
  calls : list call
}.

Arguments mkState {T} frame calls.
Arguments frame {T} s.
Arguments calls {T} s.

(** Computations over a state [S] that return or raise, written with their
    continuation: a computation is given what to do with its result and
    the state it reaches, and an exception drops the continuation and keeps
    the state reached when it was raised. *)
Definition M (S A : Type) : Type :=
  forall B : Type, (A -> S -> outcome B * S) -> S -> outcome B * S.

Definition ret {S A : Type} (a : A) : M S A := fun B k s => k a s.

Definition raise {S A : Type} (e : exn) : M S A := fun B k s => (Raise e, s).

Definition bind {S A B : Type} (m : M S A) (f : A -> M S B) : M S B :=
  fun C k s => m C (fun a s' => f a C k s') s.

#[global] Instance M_ret (S : Type) : MRet (M S) := fun A a => ret a.
#[global] Instance M_bind (S : Type) : MBind (M S) := fun A B f m => bind m f.

(** Running a computation from the state [s]. *)
Definition run {S A : Type} (m : M S A) (s : S) : outcome A * S :=
  m A (fun a s' => (Ret a, s')) s.

(** [if b: body] *)
Definition when {S : Type} (b : bool) (body : M S unit) : M S unit :=
  fun B k s => if b then body B k s else k tt s.

(** A call that returns or raises without touching the state. *)
Definition lift {S A : Type} (o : outcome A) : M S A :=
  fun B k s =>
    match o with
    | Ret a => k a s
    | Raise e => (Raise e, s)
    end.

(** [x = v] *)
Definition assign {T : Type} (x : string) (v : value T) : M (state T) unit :=
  fun B k s => k tt (mkState (<[x := v]> (frame s)) (calls s)).

(** Reading the local [x]: an unbound local raises. *)
Definition load {T : Type} (x : string) : M (state T) (value T) :=
  fun B k s =>
    match frame s !! x with
    | Some v => k v s
    | None => (Raise (UnboundLocalError x), s)
    end.

(** Reading the local [x] where a tensor operation consumes it. *)
Definition load_tensor {T : Type} (x : string) : M (state T) T :=
  v ← load x;
  match v with
  | VTensor t => ret t
  | VNone => raise (TypeError x)
  end.

(** Recording a call. *)
Definition log {T : Type} (c : call) : M (state T) unit :=
  fun B k s => k tt (mkState (frame s) (c :: calls s)).

(** ** Global names *)

(** The names bound at the top level of the module: the attributes every
    module has, the imports and the three classes. *)
Definition module_globals : gmap string pyobj :=
  list_to_map
    [ ("__name__", PStr "bittensor.synapses.gpt2.model");
      ("__doc__", PNone);
      ("__package__", PStr "bittensor.synapses.gpt2");
      ("__loader__", PObj "loader");
      ("__spec__", PObj "spec");
      ("__file__", PStr "bittensor/synapses/gpt2/model.py");
      ("__cached__", PStr "model.pyc");
      ("__builtins__", PObj "builtins");
      ("bittensor", PObj "bittensor");
      ("torch", PObj "torch");
      ("nn", PObj "torch.nn");
      ("F", PObj "torch.nn.functional");
      ("transformers", PObj "transformers");
      ("GPT2Config", PObj "transformers.GPT2Config");
      ("GPT2Model", PObj "transformers.GPT2Model");
      ("List", PObj "typing.List");
      ("Tuple", PObj "typing.Tuple");
      ("Dict", PObj "typing.Dict");
      ("Optional", PObj "typing.Optional");
      ("GPT2LMConfig", PObj "GPT2LMConfig");
      ("GPT2Pooler", PObj "GPT2Pooler");
      ("GPT2LMSynapse", PObj "GPT2LMSynapse") ].

(** The names of Python's builtin functions, constants and exceptions. *)
Definition builtin_names : list string :=
  [ "abs"; "all"; "any"; "ascii"; "bin"; "bool"; "breakpoint"; "bytearray";
    "bytes"; "callable"; "chr"; "classmethod"; "compile"; "complex";
    "delattr"; "dict"; "dir"; "divmod"; "enumerate"; "eval"; "exec";
    "filter"; "float"; "format"; "frozenset"; "getattr"; "globals";
    "hasattr"; "hash"; "help"; "hex"; "id"; "input"; "int"; "isinstance";
    "issubclass"; "iter"; "len"; "list"; "locals"; "map"; "max";
    "memoryview"; "min"; "next"; "object"; "oct"; "open"; "ord"; "pow";
    "print"; "property"; "range"; "repr"; "reversed"; "round"; "set";
    "setattr"; "slice"; "sorted"; "staticmethod"; "str"; "sum"; "super";
    "tuple"; "type"; "vars"; "zip"; "__import__";
    "None"; "True"; "False"; "Ellipsis"; "NotImplemented"; "__debug__";
    "copyright"; "credits"; "license"; "exit"; "quit";
    "BaseException"; "Exception"; "ArithmeticError"; "AssertionError";
    "AttributeError"; "BlockingIOError"; "BrokenPipeError"; "BufferError";
    "BytesWarning"; "ChildProcessError"; "ConnectionAbortedError";
    "ConnectionError"; "ConnectionRefusedError"; "ConnectionResetError";
    "DeprecationWarning"; "EOFError"; "EnvironmentError";
    "FileExistsError"; "FileNotFoundError"; "FloatingPointError";
    "FutureWarning"; "GeneratorExit"; "IOError"; "ImportError";
    "ImportWarning"; "IndentationError"; "IndexError"; "InterruptedError";
    "IsADirectoryError"; "KeyError"; "KeyboardInterrupt"; "LookupError";
    "MemoryError"; "ModuleNotFoundError"; "NameError";
    "NotADirectoryError"; "NotImplementedError"; "OSError";
    "OverflowError"; "PendingDeprecationWarning"; "PermissionError";
    "ProcessLookupError"; "RecursionError"; "ReferenceError";
    "ResourceWarning"; "RuntimeError"; "RuntimeWarning";
    "StopAsyncIteration"; "StopIteration"; "SyntaxError"; "SyntaxWarning";
    "SystemError"; "SystemExit"; "TabError"; "TimeoutError"; "TypeError";
    "UnboundLocalError"; "UnicodeDecodeError"; "UnicodeEncodeError";
    "UnicodeError"; "UnicodeTranslateError"; "UnicodeWarning";
    "UserWarning"; "ValueError"; "Warning"; "ZeroDivisionError" ].

Definition is_builtin (x : string) : bool :=
  existsb (String.eqb x) builtin_names.

(** Reading the global [x]: the module's namespace [g] first, then the
    builtins; a name found in neither raises [NameError]. *)
Definition load_global {S : Type} (g : gmap string pyobj) (x : string)
  : M S pyobj :=
  match g !! x with
  | Some v => ret v
  | None => if is_builtin x then ret (PObj x) else raise (NameError x)
  end.

(** ** The constructor of the synapse *)

(** The fields of [transformers.GPT2Config] the module reads or sets to
    other than a literal default of the library's. *)
Record GPT2Config : Type := mkGPT2Config {
  vocab_size : Z;
  n_embd : Z;
  n_layer : Z;
  n_head : Z
}.

(** A [GPT2LMConfig] holds the configuration of the transformer. *)
Record GPT2LMConfig : Type := mkGPT2LMConfig {
  huggingface_config : GPT2Config
}.

(** The attributes a [GPT2LMSynapse] is given by its constructor. *)
Inductive attr : Type :=
| AObj (o : pyobj)
| AConfig (c : GPT2LMConfig)
| AGPT2Model (c : GPT2Config)
| AGPT2Pooler (dense_in dense_out : Z)
| ARouter (x_dim key_dim topk : Z)
| ALinear (in_features out_features : Z) (bias : bool)
| ACrossEntropyLoss.

(** The constructors of transformers, torch and bittensor that the
    constructor of the synapse calls with arguments: each accepts its
    arguments or raises.  Those it calls without arguments ([nn.Tanh],
    [CrossEntropyLoss], the constructor of the base class) return. *)
Record Library : Type := mkLibrary {
  new_GPT2Model : GPT2Config -> outcome unit;    (* GPT2Model(config) *)
  new_Linear : Z -> Z -> bool -> outcome unit;   (* nn.Linear(i, o, bias) *)
  new_Router : Z -> Z -> Z -> outcome unit       (* bittensor.Router(...) *)
}.

Section Construction.

Variable lib : Library.

(** The constants of the network, [bittensor.__network_dim__] and
    [bittensor.__vocab_size__], and the two services of the package. *)
Variable bittensor_network_dim : Z.
Variable bittensor_vocab_size : Z.
Variable bittensor_dendrite : pyobj.
Variable bittensor_metagraph : pyobj.

(** The outcome of the call [GPT2LMConfig()] of line 116. *)
Variable default_configuration : outcome GPT2LMConfig.

(** [self.x = v] *)
Definition setattr (x : string) (v : attr) : M (dict attr) unit :=
  fun B k self => k tt (<[x := v]> self).

(** [self.x] *)
Definition getattr (x : string) : M (dict attr) attr :=
  fun B k self =>
    match self !! x with
    | Some v => k v self
    | None => (Raise (AttributeError x), self)
    end.

(** [v == None] *)
Definition is_none (v : attr) : bool :=
  match v with AObj PNone => true | _ => false end.

(** [GPT2Pooler(config)]: its dense layer is square, of the embedding
    dimension of the configuration. *)
Definition GPT2Pooler_init (config : GPT2Config) : outcome attr :=
  match new_Linear lib (n_embd config) (n_embd config) true with
  | Ret _ => Ret (AGPT2Pooler (n_embd config) (n_embd config))
  | Raise e => Raise e
  end.

(** [GPT2LMSynapse(config, dendrite, metagraph)]; an argument left out is
    [None]. *)
Definition GPT2LMSynapse_init (config : option GPT2LMConfig)
    (dendrite metagraph : pyobj) : M (dict attr) unit :=
  setattr "dendrite" (AObj dendrite);;
  d ← getattr "dendrite";
  when (is_none d) (setattr "dendrite" (AObj bittensor_dendrite));;
  setattr "metagraph" (AObj metagraph);;
  m ← getattr "metagraph";
  when (is_none m) (setattr "metagraph" (AObj bittensor_metagraph));;
  setattr "config" (from_option AConfig (AObj PNone) config);;
  c ← getattr "config";
  when (is_none c) (
    default_config ← lift default_configuration;
    setattr "config" (AConfig default_config));;
  c ← getattr "config";
  hf ← match c with
       | AConfig c => ret (huggingface_config c)
       | _ => raise (AttributeError "huggingface_config")
       end;
  lift (new_GPT2Model lib hf);;
  setattr "encoder_transformer" (AGPT2Model hf);;
  pooler ← lift (GPT2Pooler_init hf);
  setattr "pooler" pooler;;
  lift (new_Router lib bittensor_network_dim 100 10);;
  setattr "router" (ARouter bittensor_network_dim 100 10);;
  lift (new_GPT2Model lib hf);;
  setattr "context_transformer" (AGPT2Model hf);;
  lift (new_Linear lib (2 * bittensor_network_dim) bittensor_network_dim
          true);;
  setattr "hidden_layer"
    (ALinear (2 * bittensor_network_dim) bittensor_network_dim true);;
  lift (new_Linear lib bittensor_network_dim bittensor_vocab_size false);;
  setattr "target_layer"
    (ALinear bittensor_network_dim bittensor_vocab_size false);;
  setattr "loss_fct" ACrossEntropyLoss.

End Construction.

(** ** The collaborators of the synapse *)

(** The operations of torch that [forward] uses and the sub-modules and
    services a [GPT2LMSynapse] holds, over an arbitrary type [T] of
    tensors.  The transformer blocks and the layers are functions of their
    input; the metagraph, the router and the dendrite are the network side. *)
Record Synapse (T : Type) : Type := mkSynapse {
  (* torch *)
  tensor_zero : T;                       (* torch.tensor(0.0) *)
  tensor_add : T -> T -> T;              (* a + b *)
  torch_cat : T -> T -> T;               (* torch.cat([a, b], dim=2) *)
  detach : T -> T;                       (* t.detach() *)
  mse_loss : T -> T -> T;                (* F.mse_loss(a, b) *)
  drop_last : T -> T;                    (* t[..., :-1, :].contiguous() *)
  view_rows : T -> T;                    (* t.view(-1, t.size(-1)) *)
  first_token : T -> T;                  (* t[:, 0] *)
  tanh : T -> T;                         (* nn.Tanh() *)
  (* the sub-modules of the synapse *)
  encoder_transformer : Tokens -> T;     (* GPT2Model(...).last_hidden_state *)
  pooler_dense : T -> T;                 (* nn.Linear(n_embd, n_embd) *)
  context_transformer : Tokens -> T;     (* GPT2Model(...).last_hidden_state *)
  hidden_layer : T -> T;                 (* nn.Linear(2 * dim, dim) *)
  target_layer : T -> T;                 (* nn.Linear(dim, vocab, bias=False) *)
  loss_fct : T -> list Z -> T;           (* torch.nn.CrossEntropyLoss() *)
  (* the network *)
  metagraph_synapses : list Peer;        (* bittensor.metagraph.synapses() *)
  router_route : list Peer -> T -> Tokens -> list Tokens * T;
  dendrite_forward_text : list Peer -> list Tokens -> list T;
  router_combine : list T -> T
}.

Arguments tensor_zero {T} s.
Arguments tensor_add {T} s _ _.
Arguments torch_cat {T} s _ _.
Arguments detach {T} s _.
Arguments mse_loss {T} s _ _.
Arguments drop_last {T} s _.
Arguments view_rows {T} s _.
Arguments first_token {T} s _.
Arguments tanh {T} s _.
Arguments encoder_transformer {T} s _.
Arguments pooler_dense {T} s _.
Arguments context_transformer {T} s _.
Arguments hidden_layer {T} s _.
Arguments target_layer {T} s _.
Arguments loss_fct {T} s _ _.
Arguments metagraph_synapses {T} s.
Arguments router_route {T} s _ _ _.
Arguments dendrite_forward_text {T} s _ _.
Arguments router_combine {T} s _.

Section Model.

Context {T : Type}.
Variable self : Synapse T.

(** ** GPT2Pooler.forward *)

(** The hidden state of the first token, through the dense layer and the
    activation. *)
Definition GPT2Pooler_forward (hidden_states : T) : T :=
  let first_token_tensor := first_token self hidden_states in
  let pooled_output := pooler_dense self first_token_tensor in
  let pooled_output := tanh self pooled_output in
  pooled_output.

(** ** Router.join *)

(** Modelled from the spec: [bittensor.Router] is not among the sources.
    [join] combines the responses of the peers that answered into one
    tensor; if zero peers respond, the Router fails with
    [NoPeerResponseError]. *)
Definition router_join (responses : list T) : outcome T :=
  match responses with
  | [] => Raise NoPeerResponseError
  | _ :: _ => Ret (router_combine self responses)
  end.

(** The responses the remote call of [forward] obtains for [inputs]: the
    requests the router makes for the peers of the metagraph, sent by the
    dendrite.  It is empty when zero peers respond. *)
Definition remote_responses (inputs : Tokens) : list T :=
  let synapses := metagraph_synapses self in
  let pooled := GPT2Pooler_forward (encoder_transformer self inputs) in
  let requests := fst (router_route self synapses pooled inputs) in
  dendrite_forward_text self synapses requests.

(** ** The causal language-model loss *)

(** [inputs[..., 1:].contiguous().view(-1)]: every row without its first
    token, flattened. *)
Definition shift_labels (inputs : Tokens) : list Z :=
  concat (map (drop 1) inputs).

(** The loss of the logits [target] against the inputs shifted by one
    position, as both target blocks of [forward] compute it. *)
Definition causal_loss (target : T) (inputs : Tokens) : T :=
  let shift_logits := drop_last self target in
  loss_fct self (view_rows self shift_logits) (shift_labels inputs).

(** ** GPT2LMSynapse.forward *)

(** The value of [loss + x] when [x] is a tensor. *)
Definition add_to_loss (x : string) : M (state T) unit :=
  loss ← load_tensor "loss";
  term ← load_tensor x;
  assign "loss" (VTensor (tensor_add self loss term)).

(** The remote call: lines 223 to 226. *)
Definition remote_call (inputs : Tokens) : M (state T) unit :=
  log MetagraphSynapses;;
  let synapses := metagraph_synapses self in
  pooled ← load_tensor "pooled";
  log RouterRoute;;
  let requests := fst (router_route self synapses pooled inputs) in
  log DendriteForwardText;;
  let responses := dendrite_forward_text self synapses requests in
  log RouterJoin;;
  remote_context ← lift (router_join responses);
  assign "remote_context" (VTensor remote_context).

(** The dictionary [forward] returns: its eight names are read in the order
    of the display. *)
Definition result_dict : M (state T) (dict (value T)) :=
  loss ← load "loss";
  local_hidden ← load "local_hidden";
  local_target ← load "local_target";
  local_target_loss ← load "local_target_loss";
  remote_hidden ← load "remote_hidden";
  remote_target ← load "remote_target";
  remote_target_loss ← load "remote_target_loss";
  distillation_loss ← load "distillation_loss";
  mret (
    [ ("loss", loss);
      ("local_hidden", local_hidden);
      ("local_target", local_target);
      ("local_target_loss", local_target_loss);
      ("remote_hidden", remote_hidden);
      ("remote_target", remote_target);
      ("remote_target_loss", remote_target_loss);
      ("distillation_loss", distillation_loss) ]).

Definition forward_body (g : gmap string pyobj) (inputs : Tokens)
    (training remote : bool) : M (state T) (dict (value T)) :=
  (* Return vars. *)
  assign "loss" (VTensor (tensor_zero self));;
  assign "local_output" VNone;;
  assign "network_output" VNone;;
  assign "network_target_loss" VNone;;
  assign "local_target_loss" VNone;;
  assign "distillation_loss" VNone;;
  (* encoding *)
  assign "encoding" (VTensor (encoder_transformer self inputs));;
  (* pooled *)
  encoding ← load_tensor "encoding";
  assign "pooled" (VTensor (GPT2Pooler_forward encoding));;
  (* remote_context *)
  query ← load_global g "query";
  when (truthy query) (remote_call inputs);;
  (* local_context *)
  assign "local_context" (VTensor (context_transformer self inputs));;
  when remote (
    local_context ← load_tensor "local_context";
    remote_context ← load_tensor "remote_context";
    assign "distillation_loss"
      (VTensor (mse_loss self local_context (detach self remote_context)));;
    add_to_loss "distillation_loss");;
  (* local_hidden *)
  encoding ← load_tensor "encoding";
  local_context ← load_tensor "local_context";
  assign "local_hidden" (VTensor (torch_cat self encoding local_context));;
  local_hidden ← load_tensor "local_hidden";
  assign "local_hidden" (VTensor (hidden_layer self local_hidden));;
  when training (
    local_hidden ← load_tensor "local_hidden";
    assign "local_target" (VTensor (target_layer self local_hidden));;
    local_target ← load_tensor "local_target";
    assign "local_target_loss" (VTensor (causal_loss local_target inputs));;
    add_to_loss "local_target_loss");;
  when remote (
    encoding ← load_tensor "encoding";
    remote_context ← load_tensor "remote_context";
    assign "remote_hidden" (VTensor (torch_cat self encoding remote_context));;
    remote_hidden ← load_tensor "remote_hidden";
    assign "remote_hidden" (VTensor (hidden_layer self remote_hidden));;
    when training (
      local_hidden ← load_tensor "local_hidden";
      assign "remote_target" (VTensor (target_layer self local_hidden));;
      remote_target ← load_tensor "remote_target";
      assign "remote_target_loss" (VTensor (causal_loss remote_target inputs));;
      add_to_loss "remote_target_loss"));;
  result_dict.

(** A call of [forward]: the body runs in a fresh frame, after the calls
    [w] made so far. *)
Definition forward (g : gmap string pyobj) (inputs : Tokens)
    (training remote : bool) (w : list call)
  : outcome (dict (value T)) * state T :=
  run (forward_body g inputs training remote) (mkState ∅ w).

(** ** GPT2LMSynapse.forward_text *)

(** [self.forward(inputs=inputs.to(self.device), training=False,
    remote=False)['local_hidden']] *)
Definition forward_text (g : gmap string pyobj) (inputs : Tokens)
    (w : list call) : outcome (value T) * state T :=
  match forward g inputs false false w with
  | (Ret d, s) =>
      match d !! "local_hidden" with
      | Some hidden => (Ret hidden, s)
      | None => (Raise (KeyError "local_hidden"), s)
      end
  | (Raise e, s) => (Raise e, s)
  end.

(** ** Reading the loss terms *)

(** The hidden layer of the local path: the encoding and the local context,
    concatenated and projected. *)
Definition local_hidden_of (inputs : Tokens) : T :=
  hidden_layer self
    (torch_cat self (encoder_transformer self inputs)
                    (context_transformer self inputs)).

(** Whether a variable, or an entry of the result, holds a tensor. *)
Definition is_tensor (x : option (value T)) : bool :=
  match x with Some (VTensor _) => true | _ => false end.

(** [acc + x] when the loss term [x] was computed, [acc] when it was not. *)
Definition add_term (acc : T) (x : option (value T)) : T :=
  match x with
  | Some (VTensor t) => tensor_add self acc t
  | _ => acc
  end.

(** The distillation loss of a call whose remote call succeeded. *)
Definition distillation_of (inputs : Tokens) : T :=
  mse_loss self (context_transformer self inputs)
    (detach self (router_combine self (remote_responses inputs))).

(** The target loss of the local path. *)
Definition local_target_loss_of (inputs : Tokens) : T :=
  causal_loss (target_layer self (local_hidden_of inputs)) inputs.

(** [acc + x] when [b] holds, [acc] otherwise. *)
Definition add_when (b : bool) (acc x : T) : T :=
  if b then tensor_add self acc x else acc.

(** The total loss in the order of the statements of [forward]: the
    distillation loss, then the local target loss, then the remote target
    loss. *)
Definition composed_loss (distillation local remote : option (value T)) : T :=
  add_term (add_term (add_term (tensor_zero self) distillation) local) remote.

(** The total loss in the order of the specification: the local task loss,
    then the remote task loss, then the distillation loss. *)
Definition spec_composed_loss (distillation local remote : option (value T))
  : T :=
  add_term (add_term (add_term (tensor_zero self) local) remote) distillation.

End Model.

(** ** Two interpretations of tensors *)

(** *** Tensors as the expressions that compute them

    Every operation is a constructor, so two tensors are equal only when the
    same operations were applied to the same arguments in the same order. *)
Inductive sym : Type :=
| SZero
| SAdd (a b : sym)
| SCat (a b : sym)
| SDetach (a : sym)
| SMse (a b : sym)
| SDropLast (a : sym)
| SViewRows (a : sym)
| SFirstToken (a : sym)
| STanh (a : sym)
| SEncoder (inputs : Tokens)
| SDense (a : sym)
| SContext (inputs : Tokens)
| SHidden (a : sym)
| STarget (a : sym)
| SCrossEntropy (logits : sym) (labels : list Z)
| SScores (pooled : sym)
| SResponse (peer : Peer) (request : Tokens)
| SCombine (responses : list sym).

(** The requests of a routing step: every peer is sent the tokens. *)
Definition requests_for (peers : list Peer) (inputs : Tokens) : list Tokens :=
  map (fun _ => inputs) peers.

(** The peers among [peers] that answer, each with its request. *)
Definition answering (responding : Peer -> bool) (peers : list Peer)
    (requests : list Tokens) : list (Peer * Tokens) :=
  filter (fun pr => responding (fst pr) = true) (zip peers requests).

(** The network has the peers [peers]; [responding] tells which of them
    answer a request. *)
Definition sym_synapse (peers : list Peer) (responding : Peer -> bool)
  : Synapse sym :=
  {| tensor_zero := SZero;
     tensor_add := SAdd;
     torch_cat := SCat;
     detach := SDetach;
     mse_loss := SMse;
     drop_last := SDropLast;
     view_rows := SViewRows;
     first_token := SFirstToken;
     tanh := STanh;
     encoder_transformer := SEncoder;
     pooler_dense := SDense;
     context_transformer := SContext;
     hidden_layer := SHidden;
     target_layer := STarget;
     loss_fct := SCrossEntropy;
     metagraph_synapses := peers;
     router_route := fun ps pooled inputs =>
       (requests_for ps inputs, SScores pooled);
     dendrite_forward_text := fun ps requests =>
       map (fun pr => SResponse (fst pr) (snd pr))
           (answering responding ps requests);
     router_combine := SCombine |}.

(** *** Tensors as the nodes their gradient reaches

    A tensor is abstracted by the set of the nodes of the autograd graph
    that [backward] accumulates a gradient into when it starts from that
    tensor: the parameters of the layers it went through, the peers whose
    responses it was computed from, and the node named [remote_context]
    for the tensor the router joins.  [detach] cuts the graph. *)
Definition grad_synapse (peers : list Peer) (responding : Peer -> bool)
  : Synapse (gset string) :=
  {| tensor_zero := ∅;
     tensor_add := fun a b => a ∪ b;
     torch_cat := fun a b => a ∪ b;
     detach := fun _ => ∅;
     mse_loss := fun a b => a ∪ b;
     drop_last := fun a => a;
     view_rows := fun a => a;
     first_token := fun a => a;
     tanh := fun a => a;
     encoder_transformer := fun _ => {["encoder_transformer"]};
     pooler_dense := fun a => {["pooler"]} ∪ a;
     context_transformer := fun _ => {["context_transformer"]};
     hidden_layer := fun a => {["hidden_layer"]} ∪ a;
     target_layer := fun a => {["target_layer"]} ∪ a;
     loss_fct := fun a _ => a;
     metagraph_synapses := peers;
     router_route := fun ps pooled inputs =>
       (requests_for ps inputs, {["router"]} ∪ pooled);
     dendrite_forward_text := fun ps requests =>
       map (fun pr => {[fst pr]}) (answering responding ps requests);
     router_combine := fun responses =>
       {["remote_context"]} ∪ ⋃ responses |}.

(** ** Names used by the statements *)

(** Whether the global namespace [g] makes [forward] take the branch of the
    remote call. *)
Definition query_holds (g : gmap string pyobj) : bool :=
  from_option truthy false (g !! "query").

(** The calls of one remote call, the most recent first. *)
Definition remote_calls : list call :=
  [RouterJoin; DendriteForwardText; RouterRoute; MetagraphSynapses].

(** The namespace of the module with the global [query] bound to [True]. *)
Definition globals_with_query : gmap string pyobj :=
  <["query" := PBool true]> module_globals.

(** The claim C1 at a call whose remote call finds no peer responding. *)
Definition fallback_claim (self : Synapse sym) (g : gmap string pyobj)
    (inputs : Tokens) (training : bool) : Prop :=
  exists d d',
    fst (forward self g inputs training true []) = Ret d /\
    fst (forward self g inputs training false []) = Ret d' /\
    d !! "remote_hidden" = Some VNone /\
    d !! "remote_target_loss" = Some VNone /\
    d !! "distillation_loss" = Some VNone /\
    d !! "loss" = d' !! "loss".

(** The attributes of a synapse built for the configuration [c] of the
    transformer, with the constants [dim] and [vocab] of the network. *)
Definition synapse_attributes (dim vocab : Z) (dendrite metagraph : pyobj)
    (c : GPT2Config) : dict attr :=
    [ ("dendrite", AObj dendrite);
      ("metagraph", AObj metagraph);
      ("config", AConfig {| huggingface_config := c |});
      ("encoder_transformer", AGPT2Model c);
      ("pooler", AGPT2Pooler (n_embd c) (n_embd c));
      ("router", ARouter dim 100 10);
      ("context_transformer", AGPT2Model c);
      ("hidden_layer", ALinear (2 * dim) dim true);
      ("target_layer", ALinear dim vocab false);
      ("loss_fct", ACrossEntropyLoss) ].

(** ** Names used by the further statements *)

(** Whether at least one peer answers the remote call for [inputs]. *)
Definition peers_respond {T : Type} (self : Synapse T) (inputs : Tokens)
  : bool :=
  match remote_responses self inputs with
  | [] => false
  | _ :: _ => true
  end.

(** The exception a call of [forward] ends with when it does not return:
    the name [query] is unbound; or the remote call is made and no peer
    answers; or [remote_context] is read at line 234 without having been
    assigned; or the dictionary of the [return] statement reads a name that
    no statement assigned. *)
Definition forward_error {T : Type} (self : Synapse T)
    (g : gmap string pyobj) (inputs : Tokens) (training remote : bool)
  : exn :=
  match g !! "query" with
  | None => NameError "query"
  | Some q =>
      if truthy q then
        if peers_respond self inputs then
          UnboundLocalError
            (if training then "remote_hidden" else "local_target")
        else NoPeerResponseError
      else if remote then UnboundLocalError "remote_context"
      else UnboundLocalError
             (if training then "remote_hidden" else "local_target")
  end.

(** The keys of the dictionary [forward] returns, in its order. *)
Definition result_keys : list string :=
  [ "loss"; "local_hidden"; "local_target"; "local_target_loss";
    "remote_hidden"; "remote_target"; "remote_target_loss";
    "distillation_loss" ].

(** The hidden layer of the remote path: the encoding and the joined
    responses, concatenated and projected. *)
Definition remote_hidden_of {T : Type} (self : Synapse T) (inputs : Tokens)
  : T :=
  hidden_layer self
    (torch_cat self (encoder_transformer self inputs)
       (router_combine self (remote_responses self inputs))).

(** What a [None] argument of the constructor of the synapse is replaced
    by. *)
Definition or_default (given fallback : pyobj) : pyobj :=
  match given with
  | PNone => fallback
  | _ => given
  end.

(** The attributes set when the constructor of the synapse reaches line
    120. *)
Definition attributes_before_encoder (dendrite metagraph : pyobj)
    (c : GPT2Config) : dict attr :=
  [ ("dendrite", AObj dendrite);
    ("metagraph", AObj metagraph);
    ("config", AConfig {| huggingface_config := c |}) ].

(** A library for the examples: its [GPT2Model] refuses a number of heads
    that does not divide the embedding dimension. *)
Definition sample_library : Library :=
  {| new_GPT2Model := fun c =>
       if (0 <? n_head c)%Z && (n_embd c mod n_head c =? 0)%Z then Ret tt
       else Raise (ValueError "embed_dim must be divisible by num_heads");
     new_Linear := fun _ _ _ => Ret tt;
     new_Router := fun _ _ _ => Ret tt |}.

(** * Properties *)

(** ** The paths through [forward]

    A call of [forward] is settled by what the global name [query] is bound
    to, by the responses of the peers when the remote call is made, and by
    the two flags.  [forward_paths] splits a goal about a call along the
    first two (the flags are split by the caller beforehand) and evaluates
    the body on each path. *)
Ltac forward_paths self g inputs :=
  let rs := fresh "rs" in
  let Hrs := fresh "Hrs" in
  let q := fresh "q" in
  remember (remote_responses self inputs) as rs eqn:Hrs;
  destruct self;
  unfold forward_text, forward, forward_body, load_global;
  vm_compute in Hrs;
  destruct (g !! "query") as [q|];
  [ destruct q as [ | [|] | [| |] | [|] | ];
    vm_compute; try (rewrite <- Hrs; destruct rs; vm_compute)
  | vm_compute ].

Section Forward.

Context {T : Type}.
Implicit Types (self : Synapse T) (g : gmap string pyobj) (inputs : Tokens).
Implicit Types (training remote : bool) (w : list call).

(** C9: the name [query] that the body of [forward] evaluates is bound
    neither in the module nor among the builtins nor in the frame, so with
    the module's own namespace every call of [forward], for all inputs and
    both flags, raises [NameError] for it; no call was made and neither
    context was computed by then.  [forward_text] calls [forward] and fails
    the same way. *)
Theorem forward_query_unbound self inputs training remote w :
  module_globals !! "query" = None /\
  is_builtin "query" = false /\
  (exists s,
     forward self module_globals inputs training remote w
       = (Raise (NameError "query"), s) /\
     calls s = w /\
     frame s !! "query" = None /\
     frame s !! "remote_context" = None /\
     frame s !! "local_context" = None) /\
  (exists s,
     forward_text self module_globals inputs w
       = (Raise (NameError "query"), s)).
Proof.
  split; [vm_compute; reflexivity|]. split; [vm_compute; reflexivity|].
  split; eexists.
  - split; [vm_compute; reflexivity|]. repeat split.
  - vm_compute. reflexivity.
Qed.

(** C3 (what the code does): a call of [forward] with [training=False]
    returns no result, whatever the namespace, the peers and [remote] are. *)
Theorem forward_not_training_raises self g inputs remote w :
  exists e, fst (forward self g inputs false remote w) = Raise e.
Proof.
  destruct remote; forward_paths self g inputs; eexists; reflexivity.
Qed.

(** C7 (what the code does): a call of [forward_text] returns no tensor,
    whatever the namespace, the peers and the tokens are. *)
Theorem forward_text_raises self g inputs w :
  exists e, fst (forward_text self g inputs w) = Raise e.
Proof.
  forward_paths self g inputs; eexists; reflexivity.
Qed.

(** C2 (what the code does): the remote call is made exactly when the
    global [query] is bound to a true value; the parameter [remote] has no
    part in it. *)
Theorem remote_call_gated_by_query self g inputs training remote w :
  calls (snd (forward self g inputs training remote w))
    = if query_holds g then (remote_calls ++ w)%list else w.
Proof.
  unfold query_holds.
  destruct training, remote; forward_paths self g inputs; reflexivity.
Qed.

(** C4 (what the code does): whenever [remote_target] is assigned, it is
    the target layer applied to the hidden layer of the local path, the
    very tensor [local_target] holds, and the remote target loss is the
    local target loss once more. *)
Theorem remote_target_from_local_hidden self g inputs training remote w :
  let s := snd (forward self g inputs training remote w) in
  match frame s !! "remote_target" with
  | None => True
  | Some v =>
      v = VTensor (target_layer self (local_hidden_of self inputs)) /\
      frame s !! "local_target" = Some v /\
      frame s !! "remote_target_loss" = frame s !! "local_target_loss"
  end.
Proof.
  destruct training, remote; forward_paths self g inputs; repeat split.
Qed.

(** C5 (as amended): at the end of every call of [forward], returning or
    raising, the loss is the sum, from zero, of the loss terms that were
    computed and of no other, taken in the order distillation loss, local
    target loss, remote target loss; a term is computed only under its
    flags; and a returned result carries that loss and those terms. *)
Theorem loss_composition_order self g inputs training remote w :
  let s := snd (forward self g inputs training remote w) in
  frame s !! "loss"
    = Some (VTensor (composed_loss self
                       (frame s !! "distillation_loss")
                       (frame s !! "local_target_loss")
                       (frame s !! "remote_target_loss"))) /\
  (is_tensor (frame s !! "distillation_loss") = true -> remote = true) /\
  (is_tensor (frame s !! "local_target_loss") = true -> training = true) /\
  (is_tensor (frame s !! "remote_target_loss") = true ->
     training = true /\ remote = true) /\
  (forall d, fst (forward self g inputs training remote w) = Ret d ->
     d !! "loss"
       = Some (VTensor (composed_loss self
                          (d !! "distillation_loss")
                          (d !! "local_target_loss")
                          (d !! "remote_target_loss")))).
Proof.
  destruct training, remote; forward_paths self g inputs;
    repeat split; try discriminate; intros d [= <-]; reflexivity.
Qed.

(** The values the variable [loss] can have at the end of a call. *)
Lemma final_loss_shape self g inputs training remote w loss :
  frame (snd (forward self g inputs training remote w)) !! "loss"
    = Some (VTensor loss) ->
  exists d l r : bool,
    loss = add_when self r
             (add_when self l
                (add_when self d (tensor_zero self)
                   (distillation_of self inputs))
                (local_target_loss_of self inputs))
             (local_target_loss_of self inputs).
Proof.
  destruct training, remote; forward_paths self g inputs;
    intros [= <-];
    first [ exists false, false, false; vm_compute; reflexivity
          | exists false, true, false; vm_compute; reflexivity
          | exists true, false, false; vm_compute; reflexivity
          | exists true, true, true; vm_compute; reflexivity ].
Qed.

End Forward.

Section RemotePath.

Context {T : Type}.
Implicit Types (self : Synapse T) (g : gmap string pyobj) (inputs : Tokens).
Implicit Types (training remote : bool) (w : list call).


(** C1 (as amended): when zero peers respond, a call of [forward] with
    [remote=True] returns no result, for there is no fallback to the local
    pass: where the remote call is made, the [NoPeerResponseError] of the
    router leaves [forward] as it is, after the four calls and before the
    local context is computed. *)
Theorem zero_peers_no_result self g inputs training w :
  remote_responses self inputs = [] ->
  let r := forward self g inputs training true w in
  returns (fst r) = false /\
  (query_holds g = true ->
     fst r = Raise NoPeerResponseError /\
     calls (snd r) = (remote_calls ++ w)%list /\
     frame (snd r) !! "local_context" = None).
Proof.
  unfold query_holds.
  destruct training; forward_paths self g inputs;
    intros; try discriminate; repeat split; discriminate.
Qed.

End RemotePath.

(** C4, at a call that computes the remote target: the remote target is not
    the target layer applied to the remote hidden layer. *)
Example remote_target_not_from_remote_hidden :
  let self := sym_synapse ["alice"] (fun _ => true) in
  let s := snd (forward self globals_with_query [[1; 2; 3]]%Z true true []) in
  exists remote_hidden remote_target,
    frame s !! "remote_hidden" = Some (VTensor remote_hidden) /\
    frame s !! "remote_target" = Some (VTensor remote_target) /\
    remote_target <> target_layer self remote_hidden.
Proof.
  cbv zeta. do 2 eexists.
  split; [vm_compute; reflexivity|].
  split; [vm_compute; reflexivity|].
  vm_compute. discriminate.
Qed.

(** C1 (counterexample): the peer of the network does not respond, the
    remote call is made, and [forward] with [remote=True] raises
    [NoPeerResponseError] instead of returning the local result. *)
Lemma fallback_counterexample :
  fst (forward (sym_synapse ["alice"] (fun _ => false)) globals_with_query
         [[1; 2; 3]]%Z true true [])
    = Raise NoPeerResponseError /\
  ~ fallback_claim (sym_synapse ["alice"] (fun _ => false))
      globals_with_query [[1; 2; 3]]%Z true.
Proof.
  split; [vm_compute; reflexivity|].
  intros (d & d' & H & _). vm_compute in H. discriminate.
Qed.

(** C1 (witness): the theorem at the same call. *)
Lemma zero_peers_no_result_witness :
  let self := sym_synapse ["alice"] (fun _ => false) in
  let r := forward self globals_with_query [[1; 2; 3]]%Z true true [] in
  remote_responses self [[1; 2; 3]]%Z = [] /\
  returns (fst r) = false /\
  fst r = Raise NoPeerResponseError.
Proof.
  cbv zeta.
  assert (H : remote_responses (sym_synapse ["alice"] (fun _ => false))
                [[1; 2; 3]]%Z = []) by (vm_compute; reflexivity).
  split; [exact H|].
  pose proof (zero_peers_no_result
                (sym_synapse ["alice"] (fun _ => false))
                globals_with_query [[1; 2; 3]]%Z true [] H) as [Hr Hq].
  split; [exact Hr|].
  exact (proj1 (Hq eq_refl)).
Defined.

(** C5 (counterexample): a call that computes the three loss terms returns
    the sum that starts with the distillation loss, which is not the sum in
    the order local, remote, distillation. *)
Lemma loss_order_counterexample :
  let self := sym_synapse ["alice"] (fun _ => true) in
  exists d,
    fst (forward self globals_with_query [[1; 2; 3]]%Z true true []) = Ret d /\
    is_tensor (d !! "distillation_loss") = true /\
    is_tensor (d !! "local_target_loss") = true /\
    is_tensor (d !! "remote_target_loss") = true /\
    d !! "loss"
      <> Some (VTensor (spec_composed_loss self
                          (d !! "distillation_loss")
                          (d !! "local_target_loss")
                          (d !! "remote_target_loss"))).
Proof.
  cbv zeta. eexists. split; [vm_compute; reflexivity|].
  repeat split; vm_compute; discriminate.
Qed.

(** C5 (witness): the theorem at the same call. *)
Lemma loss_composition_order_witness :
  let self := sym_synapse ["alice"] (fun _ => true) in
  let r := forward self globals_with_query [[1; 2; 3]]%Z true true [] in
  exists d,
    fst r = Ret d /\
    d !! "loss"
      = Some (VTensor (composed_loss self
                         (d !! "distillation_loss")
                         (d !! "local_target_loss")
                         (d !! "remote_target_loss"))).
Proof.
  cbv zeta.
  destruct (fst (forward (sym_synapse ["alice"] (fun _ => true))
                   globals_with_query [[1; 2; 3]]%Z true true []))
    as [d|e] eqn:E; [|vm_compute in E; discriminate].
  exists d. split; [reflexivity|].
  exact (proj2 (proj2 (proj2 (proj2
           (loss_composition_order (sym_synapse ["alice"] (fun _ => true))
              globals_with_query [[1; 2; 3]]%Z true true []))))
         d E).
Defined.


(** * Further properties *)

Section ForwardOutcomes.

Context {T : Type}.
Implicit Types (self : Synapse T) (g : gmap string pyobj) (inputs : Tokens).
Implicit Types (training remote : bool) (w : list call).

(** X1: a call of [forward] returns a result exactly when the global
    [query] is bound to a true value, at least one peer answers, and both
    flags are set. *)
Theorem forward_returns_iff self g inputs training remote w :
  returns (fst (forward self g inputs training remote w))
    = query_holds g && peers_respond self inputs && training && remote.
Proof.
  unfold query_holds, peers_respond.
  destruct training, remote; forward_paths self g inputs; reflexivity.
Qed.

(** X2: a call of [forward] with a flag unset raises the exception
    [forward_error] tells, and so does a call with both set unless the
    remote call is made and answered. *)
Theorem forward_raises self g inputs training remote w :
  (query_holds g && peers_respond self inputs && training && remote) = false ->
  fst (forward self g inputs training remote w)
    = Raise (forward_error self g inputs training remote).
Proof.
  unfold query_holds, peers_respond, forward_error.
  destruct training, remote; forward_paths self g inputs;
    intros; try discriminate; reflexivity.
Qed.

(** X3: the result of a call of [forward] that returns has the eight keys
    of the [return] statement in its order, each bound to a tensor: the
    hidden layers of both paths, the same target for both, the distillation
    loss and the target losses. *)
Theorem forward_result self g inputs training remote w d :
  fst (forward self g inputs training remote w) = Ret d ->
  map fst d = result_keys /\
  Forall (fun kv => is_tensor (Some (snd kv)) = true) d /\
  d !! "local_hidden" = Some (VTensor (local_hidden_of self inputs)) /\
  d !! "remote_hidden" = Some (VTensor (remote_hidden_of self inputs)) /\
  d !! "local_target"
    = Some (VTensor (target_layer self (local_hidden_of self inputs))) /\
  d !! "remote_target" = d !! "local_target" /\
  d !! "local_target_loss"
    = Some (VTensor (local_target_loss_of self inputs)) /\
  d !! "remote_target_loss" = d !! "local_target_loss" /\
  d !! "distillation_loss" = Some (VTensor (distillation_of self inputs)).
Proof.
  destruct training, remote; forward_paths self g inputs;
    intros [= <-]; repeat split; repeat constructor.
Qed.

(** X4: [forward_text] makes the remote call whenever the global [query]
    is bound to a true value, although it calls [forward] with
    [remote=False]; it ends with the exception of that call. *)
Theorem forward_text_remote_call self g inputs w :
  calls (snd (forward_text self g inputs w))
    = (if query_holds g then (remote_calls ++ w)%list else w) /\
  fst (forward_text self g inputs w)
    = Raise (forward_error self g inputs false false).
Proof.
  unfold query_holds, forward_error, peers_respond.
  forward_paths self g inputs; split; reflexivity.
Qed.

End ForwardOutcomes.

(** X2 (witness): the default call, with [training=True] and
    [remote=False], in a namespace that binds [query] to [False]. *)
Lemma forward_raises_witness :
  fst (forward (sym_synapse ["alice"] (fun _ => true))
         (<["query" := PBool false]> module_globals) [[1; 2; 3]]%Z
         true false [])
    = Raise (UnboundLocalError "remote_hidden").
Proof.
  rewrite (forward_raises (sym_synapse ["alice"] (fun _ => true))
             (<["query" := PBool false]> module_globals) [[1; 2; 3]]%Z
             true false []); vm_compute; reflexivity.
Defined.

(** X3 (witness): the call that returns. *)
Lemma forward_result_witness :
  exists d,
    fst (forward (sym_synapse ["alice"] (fun _ => true)) globals_with_query
           [[1; 2; 3]]%Z true true []) = Ret d /\
    map fst d = result_keys /\
    d !! "remote_target" = d !! "local_target".
Proof.
  destruct (fst (forward (sym_synapse ["alice"] (fun _ => true))
                   globals_with_query [[1; 2; 3]]%Z true true []))
    as [d|e] eqn:E; [|vm_compute in E; discriminate].
  exists d. split; [reflexivity|].
  pose proof (forward_result (sym_synapse ["alice"] (fun _ => true))
                globals_with_query [[1; 2; 3]]%Z true true [] d E)
    as (Hk & _ & _ & _ & _ & Ht & _).
  split; [exact Hk | exact Ht].
Defined.

Section Labels.

(** X5: for a batch whose rows all have [n] tokens, the labels of the
    causal loss are [n - 1] per row; a batch of one-token rows has none. *)
Theorem shift_labels_length (inputs : Tokens) (n : nat) :
  Forall (fun row => length row = n) inputs ->
  length (shift_labels inputs) = (length inputs * (n - 1))%nat.
Proof.
  unfold shift_labels. induction 1 as [|row rows Hrow _ IH]; [reflexivity|].
  cbn [map concat length]. rewrite length_app, length_drop, IH, Hrow.
  reflexivity.
Qed.

(** X6: the first token of a row is never a label: putting a token in
    front of every row and shifting gives back the rows, flattened. *)
Theorem shift_labels_cons (first : Z) (rows : Tokens) :
  shift_labels (map (cons first) rows) = concat rows.
Proof.
  unfold shift_labels. rewrite map_map. f_equal.
  induction rows as [|row rows IH]; [reflexivity|].
  cbn [map]. rewrite IH. reflexivity.
Qed.

End Labels.

(** X5 (witness): two rows of three tokens have four labels. *)
Lemma shift_labels_length_witness :
  length (shift_labels [[1; 2; 3]; [4; 5; 6]]%Z) = 4%nat.
Proof.
  apply (shift_labels_length [[1; 2; 3]; [4; 5; 6]]%Z 3).
  repeat constructor.
Defined.


Section Constructor.

Variables (lib : Library) (dim vocab : Z).
Variables (bittensor_dendrite bittensor_metagraph : pyobj).
Variable default_configuration : outcome GPT2LMConfig.

(** X13: given a configuration, the constructor of the synapse checks
    nothing itself: whenever the library accepts the two transformers, the
    dense layer of the pooler, the router and the two linear layers, it
    succeeds and sets its ten attributes, whatever the embedding dimension
    of the configuration is; the transformers and the pooler have that
    dimension, the hidden and target layers that of the network; a dendrite
    or a metagraph that is given is kept, and [None] is replaced by the
    service of the package. *)
Theorem synapse_init_accepts (c : GPT2Config) (dendrite metagraph : pyobj) :
  new_GPT2Model lib c = Ret tt ->
  new_Linear lib (n_embd c) (n_embd c) true = Ret tt ->
  new_Router lib dim 100 10 = Ret tt ->
  new_Linear lib (2 * dim) dim true = Ret tt ->
  new_Linear lib dim vocab false = Ret tt ->
  run (GPT2LMSynapse_init lib dim vocab bittensor_dendrite
         bittensor_metagraph default_configuration
         (Some {| huggingface_config := c |}) dendrite metagraph) ∅
    = (Ret tt,
       synapse_attributes dim vocab
         (or_default dendrite bittensor_dendrite)
         (or_default metagraph bittensor_metagraph) c).
Proof.
  intros Hmodel Hdense Hrouter Hhidden Htarget.
  unfold GPT2LMSynapse_init, GPT2Pooler_init.
  destruct lib as [model linear router], c as [v e l h].
  cbn [new_GPT2Model new_Linear new_Router n_embd] in *.
  destruct dendrite, metagraph;
    vm_compute in Hhidden |- *;
    rewrite Hmodel, Hdense, Hrouter, Hhidden, Htarget; reflexivity.
Qed.

(** X14: when the library refuses the transformer of the configuration,
    the constructor of the synapse raises that exception as it is, at line
    120, and the synapse is left with three attributes: the dendrite, the
    metagraph and the configuration. *)
Theorem synapse_init_partial (c : GPT2Config) (dendrite metagraph : pyobj)
    (e : exn) :
  new_GPT2Model lib c = Raise e ->
  run (GPT2LMSynapse_init lib dim vocab bittensor_dendrite
         bittensor_metagraph default_configuration
         (Some {| huggingface_config := c |}) dendrite metagraph) ∅
    = (Raise e,
       attributes_before_encoder
         (or_default dendrite bittensor_dendrite)
         (or_default metagraph bittensor_metagraph) c).
Proof.
  intros Hmodel.
  unfold GPT2LMSynapse_init, GPT2Pooler_init.
  destruct lib as [model linear router], c as [v n l h].
  cbn [new_GPT2Model new_Linear new_Router n_embd] in *.
  destruct dendrite, metagraph;
    vm_compute; rewrite Hmodel; reflexivity.
Qed.

End Constructor.

(** X13 (witness): a configuration of dimension 768 in a network of
    dimension 512 is accepted. *)
Lemma synapse_init_accepts_witness :
  fst (run (GPT2LMSynapse_init sample_library 512 50257 (PObj "dendrite")
              (PObj "metagraph") (Raise (NameError "GPT2LMConfig"))
              (Some {| huggingface_config := mkGPT2Config 50257 768 3 2 |})
              PNone (PObj "mine")) ∅)
    = Ret tt.
Proof.
  rewrite (synapse_init_accepts sample_library 512 50257 (PObj "dendrite")
             (PObj "metagraph") (Raise (NameError "GPT2LMConfig"))
             (mkGPT2Config 50257 768 3 2) PNone (PObj "mine"));
    reflexivity.
Defined.

(** X14 (witness): two heads do not divide a dimension of 511. *)
Lemma synapse_init_partial_witness :
  run (GPT2LMSynapse_init sample_library 512 50257 (PObj "dendrite")
         (PObj "metagraph") (Raise (NameError "GPT2LMConfig"))
         (Some {| huggingface_config := mkGPT2Config 50257 511 3 2 |})
         PNone PNone) ∅
    = (Raise (ValueError "embed_dim must be divisible by num_heads"),
       [ ("dendrite", AObj (PObj "dendrite"));
         ("metagraph", AObj (PObj "metagraph"));
         ("config",
          AConfig {| huggingface_config := mkGPT2Config 50257 511 3 2 |}) ]).
Proof.
  rewrite (synapse_init_partial sample_library 512 50257 (PObj "dendrite")
             (PObj "metagraph") (Raise (NameError "GPT2LMConfig"))
             (mkGPT2Config 50257 511 3 2) PNone PNone
             (ValueError "embed_dim must be divisible by num_heads"));
    reflexivity.
Defined.
